(** * Sales analytics backend: data processor and request handlers

    A shallow embedding of [backend/data_processor.py] (class
    [DataProcessor]) and of the [/api/data] and [/api/upload] handlers of
    [backend/app.py], with the properties of the written specification
    stated and settled against them.

    Conventions of the embedding.
    - A dataframe that carries the seven schema columns is a list of typed
      rows, in row order.  [self.df] is an [option]: [None] is Python's
      [None].
    - [Int64] columns are integers of [Z] and [Float64] columns are exact
      rationals of [Q]: rounding and overflow inside the dataframe library
      are outside the model.
    - A computation that may raise returns a [Result]; the exception kind is
      kept, its message is not.
    - The dataframe primitives ([filter], [sort], [slice], [group_by], [sum],
      [mean], ...) are written out once, in [Module Polars], from the
      library's documented behaviour. *)

From Stdlib Require Import ZArith QArith List String Ascii Bool Lia.
From Stdlib Require Import Sorting.Sorted Sorting.Permutation.
From Stdlib Require Import Numbers.DecimalString.
From stdpp Require Import base gmap strings.
Import ListNotations.

Local Open Scope string_scope.
Local Open Scope Z_scope.

(** ** Exceptions and results *)

Inductive Exn : Type :=
| TypeError
| ValueError
| AttributeError
| ZeroDivisionError
| OverflowError
| ColumnNotFoundError
| ComputeError
| FileNotFoundError.

Inductive Result (A : Type) : Type :=
| Ok (a : A)
| Raise (e : Exn).

Arguments Ok {A} a.
Arguments Raise {A} e.

Definition bind {A B : Type} (m : Result A) (k : A -> Result B) : Result B :=
  match m with
  | Ok a => k a
  | Raise e => Raise e
  end.

Notation "'do' x <~ m ; k" := (bind m (fun x => k))
  (at level 10, x name, m at level 100, k at level 200).

(** ** Data model *)

(** [datetime.date]: year, month, day. *)
Record date : Type := mkdate { year : Z; month : Z; day : Z }.

Definition date_compare (a b : date) : comparison :=
  match Z.compare (year a) (year b) with
  | Eq => match Z.compare (month a) (month b) with
          | Eq => Z.compare (day a) (day b)
          | c => c
          end
  | c => c
  end.

Definition date_leb (a b : date) : bool :=
  match date_compare a b with Gt => false | _ => true end.

Definition date_eqb (a b : date) : bool :=
  (year a =? year b) && (month a =? month b) && (day a =? day b).

(** One row of the dataframe, with the dtypes that [load_data] requests. *)
Record Row : Type := mkRow {
  Sale_ID : Z;
  Date : date;
  Units_Sold : Z;
  Price_Per_Unit : Q;
  Revenue : Q;
  Region : string;
  Sales_Channel : string
}.

Definition DataFrame : Type := list Row.

(** The [filters] dict of [filter_data].  Each key is optional: [None] is a
    key that is absent (or bound to [None]). *)
Record Filters : Type := mkFilters {
  start_date : option date;
  end_date : option date;
  regions : option (list string);
  channels : option (list string);
  min_price : option Q;
  max_price : option Q
}.


(** ** The dataframe primitives *)

Module Polars.

(** [df.filter(pred)]: the rows on which the predicate holds, in order. *)
Definition filter (p : Row -> bool) (df : DataFrame) : DataFrame :=
  List.filter p df.

(** [col.is_in(values)]. *)
Definition is_in (s : string) (values : list string) : bool :=
  existsb (String.eqb s) values.

(** [len(df)]. *)
Definition len {A : Type} (l : list A) : Z := Z.of_nat (length l).

(** [series.sum()]: the sum of an empty series is zero. *)
Definition sum_int (l : list Z) : Z := fold_right Z.add 0 l.
Definition sum_float (l : list Q) : Q := fold_right Qplus (0 # 1) l.

(** [series.mean()]: [None] on an empty series. *)
Definition mean_float (l : list Q) : option Q :=
  match l with
  | [] => None
  | _ => Some (sum_float l / inject_Z (len l))%Q
  end.

Definition mean_int (l : list Z) : option Q :=
  mean_float (map inject_Z l).

(** [series.min()] and [series.max()]: [None] on an empty series. *)
Definition extremum {A : Type} (leb : A -> A -> bool) (l : list A) : option A :=
  match l with
  | [] => None
  | x :: l' => Some (fold_left (fun m y => if leb m y then m else y) l' x)
  end.

(** Sorting.  The library fixes the order of the result only up to rows
    whose keys are equal; the model is the stable insertion sort, which is
    one of the orders it may return. *)
Fixpoint insert_by {A : Type} (leb : A -> A -> bool) (x : A) (l : list A)
  : list A :=
  match l with
  | [] => [x]
  | y :: l' => if leb x y then x :: l else y :: insert_by leb x l'
  end.

Definition sort_by {A : Type} (leb : A -> A -> bool) (l : list A) : list A :=
  fold_right (insert_by leb) [] l.

(** [sort(..., descending=d)] over a key order [leb]. *)
Definition direction {A : Type} (leb : A -> A -> bool) (descending : bool)
  : A -> A -> bool :=
  if descending then (fun a b => leb b a) else leb.

(** [series.unique()] and the keys of [group_by]: the distinct values.  The
    library leaves their order open; the model keeps first occurrences. *)
Fixpoint unique_by {K : Type} (eqb : K -> K -> bool) (l : list K) : list K :=
  match l with
  | [] => []
  | k :: l' => k :: List.filter (fun k' => negb (eqb k k')) (unique_by eqb l')
  end.

(** [df.group_by(key)]: every distinct key with the rows that carry it. *)
Definition group_by {K : Type} (eqb : K -> K -> bool) (key : Row -> K)
  (df : DataFrame) : list (K * DataFrame) :=
  map (fun k => (k, List.filter (fun r => eqb (key r) k) df))
      (unique_by eqb (map key df)).

(** [df.limit(n)]. *)
Definition limit {A : Type} (n : nat) (l : list A) : list A := firstn n l.

(** [df.slice(offset, length)].  A negative offset counts from the end; a
    negative length is turned by the Python wrapper into
    [height - offset + length], and a length that is still negative cannot
    be passed on as an unsigned size. *)
Definition slice_offsets (offset length array_len : Z) : Z * Z :=
  let start := if offset <? 0 then offset + array_len else offset in
  let stop := start + length in
  let clamped_start := Z.max 0 (Z.min start array_len) in
  let clamped_stop := Z.max 0 (Z.min stop array_len) in
  (clamped_start, clamped_stop - clamped_start).

Definition slice {A : Type} (offset length : Z) (l : list A)
  : Result (list A) :=
  let length :=
    if length <? 0 then len l - offset + length else length in
  if length <? 0 then Raise OverflowError
  else
    let '(start, n) := slice_offsets offset length (len l) in
    Ok (firstn (Z.to_nat n) (skipn (Z.to_nat start) l)).

End Polars.

(** ** Columns and their orders *)

Inductive Column : Type :=
| ColSale_ID
| ColDate
| ColUnits_Sold
| ColPrice_Per_Unit
| ColRevenue
| ColRegion
| ColSales_Channel.

(** The seven schema columns, by name. *)
Definition column_names : list (string * Column) :=
  [ ("Sale_ID", ColSale_ID); ("Date", ColDate); ("Units_Sold", ColUnits_Sold);
    ("Price_Per_Unit", ColPrice_Per_Unit); ("Revenue", ColRevenue);
    ("Region", ColRegion); ("Sales_Channel", ColSales_Channel) ].

Fixpoint assoc {V : Type} (name : string) (l : list (string * V)) : option V :=
  match l with
  | [] => None
  | (k, v) :: l' => if String.eqb name k then Some v else assoc name l'
  end.

Definition column_of_name (name : string) : option Column :=
  assoc name column_names.

(** The order of a column's values: integers, dates and floats by value,
    strings lexicographically. *)
Definition col_leb (c : Column) (a b : Row) : bool :=
  match c with
  | ColSale_ID => Sale_ID a <=? Sale_ID b
  | ColDate => date_leb (Date a) (Date b)
  | ColUnits_Sold => Units_Sold a <=? Units_Sold b
  | ColPrice_Per_Unit => Qle_bool (Price_Per_Unit a) (Price_Per_Unit b)
  | ColRevenue => Qle_bool (Revenue a) (Revenue b)
  | ColRegion => String.leb (Region a) (Region b)
  | ColSales_Channel => String.leb (Sales_Channel a) (Sales_Channel b)
  end.

(** [df.sort(by, descending=...)]: an unknown column name is refused. *)
Definition df_sort (by_name : string) (descending : bool) (df : DataFrame)
  : Result DataFrame :=
  match column_of_name by_name with
  | None => Raise ColumnNotFoundError
  | Some c => Ok (Polars.sort_by (Polars.direction (col_leb c) descending) df)
  end.

(** ** Formatting *)

(** [str(n)] for an integer. *)
Definition py_str (n : Z) : string := NilZero.string_of_int (Z.to_int n).

Fixpoint zeros (n : nat) : string :=
  match n with
  | O => ""
  | S n' => String "0" (zeros n')
  end.

(** Zero padding of a string of digits up to [width] characters. *)
Definition zfill (width : nat) (s : string) : string :=
  zeros (width - String.length s) +:+ s.

(** [f"{n:02d}"]: the sign, when there is one, counts in the width. *)
Definition format_02d (n : Z) : string :=
  if n <? 0 then "-" +:+ zfill 1 (py_str (- n)) else zfill 2 (py_str n).

(** [d.strftime('%Y-%m-%d')]: four-digit year, two-digit month and day. *)
Definition strftime_ymd (d : date) : string :=
  zfill 4 (py_str (year d)) +:+ "-" +:+ zfill 2 (py_str (month d))
    +:+ "-" +:+ zfill 2 (py_str (day d)).

(** [float(x)] on what an aggregate returned: [None] is not a number. *)
Definition py_float_of (x : option Q) : Result Q :=
  match x with
  | Some q => Ok q
  | None => Raise TypeError
  end.

(** ** The dicts returned by the query methods *)

(** [get_kpi_metrics]; the four [top_*] keys are set only under their guards. *)
Module Kpi.
Record t : Type := mk {
  total_revenue : Q;
  total_units : Z;
  avg_price : Q;
  total_transactions : Z;
  avg_units_per_sale : Q;
  revenue_per_transaction : Q;
  top_region : option string;
  top_region_revenue : option Q;
  top_channel : option string;
  top_channel_revenue : option Q
}.
End Kpi.

(** A dict that is either the empty dict [{}] or one with the keys of [A]. *)
Inductive Dict (A : Type) : Type :=
| EmptyDict
| Keys (a : A).

Arguments EmptyDict {A}.
Arguments Keys {A} a.

(** A row of a group-by breakdown; [key] is the grouping column (['Region'],
    ['Sales_Channel'] or ['Price_Per_Unit']). *)
Module Group.
Record t (K : Type) : Type := mk {
  key : K;
  total_revenue : Q;
  total_units : Z;
  transaction_count : Z
}.
Arguments mk {K}.
Arguments key {K}.
Arguments total_revenue {K}.
Arguments total_units {K}.
Arguments transaction_count {K}.
End Group.

Module Daily.
Record t : Type := mk {
  date : string;
  revenue : Q;
  units : Z;
  transactions : Z
}.
End Daily.

Module Monthly.
Record t : Type := mk {
  year_month : string;
  revenue : Q;
  units : Z;
  transactions : Z;
  avg_price : Q
}.
End Monthly.

Module Options.
Record t : Type := mk {
  regions : list string;
  channels : list string;
  price_range_min : Q;
  price_range_max : Q;
  date_range_start : string;
  date_range_end : string
}.
End Options.

(** A record of the table: the row with its [Date] rendered. *)
Module TableRow.
Record t : Type := mk {
  Sale_ID : Z;
  Date : string;
  Units_Sold : Z;
  Price_Per_Unit : Q;
  Revenue : Q;
  Region : string;
  Sales_Channel : string
}.
End TableRow.

(** [get_table_data]; [current_page] is [None] when the key is not set. *)
Module Table.
Record t : Type := mk {
  data : list TableRow.t;
  total : Z;
  pages : Z;
  current_page : option Z
}.
End Table.

(** ** The query methods of [DataProcessor] *)

(** Truthiness of a Python list. *)
Definition truthy_list {A : Type} (l : list A) : bool :=
  match l with [] => false | _ => true end.

Definition filter_data (self_df : option DataFrame) (filters : Filters)
  : option DataFrame :=
  match self_df with
  | None => None
  | Some df =>
    let filtered_df := df in
    (* Date range filter *)
    let filtered_df :=
      match start_date filters with
      | Some d => Polars.filter (fun r => date_leb d (Date r)) filtered_df
      | None => filtered_df
      end in
    let filtered_df :=
      match end_date filters with
      | Some d => Polars.filter (fun r => date_leb (Date r) d) filtered_df
      | None => filtered_df
      end in
    (* Region filter *)
    let filtered_df :=
      match regions filters with
      | Some l =>
        if truthy_list l
        then Polars.filter (fun r => Polars.is_in (Region r) l) filtered_df
        else filtered_df
      | None => filtered_df
      end in
    (* Sales channel filter *)
    let filtered_df :=
      match channels filters with
      | Some l =>
        if truthy_list l
        then Polars.filter (fun r => Polars.is_in (Sales_Channel r) l) filtered_df
        else filtered_df
      | None => filtered_df
      end in
    (* Price range filter *)
    let filtered_df :=
      match min_price filters with
      | Some q => Polars.filter (fun r => Qle_bool q (Price_Per_Unit r)) filtered_df
      | None => filtered_df
      end in
    let filtered_df :=
      match max_price filters with
      | Some q => Polars.filter (fun r => Qle_bool (Price_Per_Unit r) q) filtered_df
      | None => filtered_df
      end in
    Some filtered_df
  end.

(** [group_by(key).agg(sum Revenue, sum Units_Sold, count)]. *)
Definition agg_revenue {K : Type} (eqb : K -> K -> bool) (key : Row -> K)
  (df : DataFrame) : list (Group.t K) :=
  map (fun g : K * DataFrame =>
         Group.mk (fst g)
           (Polars.sum_float (map Revenue (snd g)))
           (Polars.sum_int (map Units_Sold (snd g)))
           (Polars.len (snd g)))
      (Polars.group_by eqb key df).

Definition by_total_revenue {K : Type} (a b : Group.t K) : bool :=
  Qle_bool (Group.total_revenue a) (Group.total_revenue b).

(** [group_by(key).agg(sum Revenue).sort('total_revenue', descending=True)
    .limit(1)], as a list of (key, total_revenue). *)
Definition top_by (key : Row -> string) (df : DataFrame) : list (string * Q) :=
  Polars.limit 1
    (Polars.sort_by
       (Polars.direction (fun a b : string * Q => Qle_bool (snd a) (snd b)) true)
       (map (fun g : string * DataFrame =>
               (fst g, Polars.sum_float (map Revenue (snd g))))
            (Polars.group_by String.eqb key df))).

Definition get_kpi_metrics (self_df : option DataFrame)
  : Result (Dict Kpi.t) :=
  match self_df with
  | None => Ok EmptyDict
  | Some df =>
    do total_revenue <~ Ok (Polars.sum_float (map Revenue df));
    do total_units <~ Ok (Polars.sum_int (map Units_Sold df));
    do avg_price <~ py_float_of (Polars.mean_float (map Price_Per_Unit df));
    do total_transactions <~ Ok (Polars.len df);
    do avg_units_per_sale <~ py_float_of (Polars.mean_int (map Units_Sold df));
    do revenue_per_transaction <~ py_float_of (Polars.mean_float (map Revenue df));
    (* Top performers *)
    let top_region := top_by Region df in
    let top_channel := top_by Sales_Channel df in
    Ok (Keys (Kpi.mk total_revenue total_units avg_price total_transactions
                avg_units_per_sale revenue_per_transaction
                (option_map fst (head top_region))
                (option_map snd (head top_region))
                (option_map fst (head top_channel))
                (option_map snd (head top_channel))))
  end.

Definition get_revenue_by_region (self_df : option DataFrame)
  : list (Group.t string) :=
  match self_df with
  | None => []
  | Some df =>
    Polars.sort_by (Polars.direction by_total_revenue true)
      (agg_revenue String.eqb Region df)
  end.

Definition get_revenue_by_channel (self_df : option DataFrame)
  : list (Group.t string) :=
  match self_df with
  | None => []
  | Some df =>
    Polars.sort_by (Polars.direction by_total_revenue true)
      (agg_revenue String.eqb Sales_Channel df)
  end.

Definition get_daily_revenue_trend (self_df : option DataFrame)
  : list Daily.t :=
  match self_df with
  | None => []
  | Some df =>
    let result :=
      Polars.sort_by
        (Polars.direction
           (fun a b : Group.t date => date_leb (Group.key a) (Group.key b)) false)
        (agg_revenue date_eqb Date df) in
    (* Convert to format suitable for charts *)
    map (fun row =>
           Daily.mk (strftime_ymd (Group.key row)) (Group.total_revenue row)
             (Group.total_units row) (Group.transaction_count row))
        result
  end.

Definition get_price_distribution (self_df : option DataFrame)
  : list (Group.t Q) :=
  match self_df with
  | None => []
  | Some df =>
    Polars.sort_by
      (Polars.direction
         (fun a b : Group.t Q => Qle_bool (Group.key a) (Group.key b)) false)
      (agg_revenue Qeq_bool Price_Per_Unit df)
  end.

(** A row of the monthly aggregation before it is rendered. *)
Module MonthAgg.
Record t : Type := mk {
  year : Z;
  month : Z;
  monthly_revenue : Q;
  monthly_units : Z;
  monthly_transactions : Z;
  avg_price : option Q
}.
End MonthAgg.

(** The grouping key of [get_monthly_trends]: the columns [year], [month]. *)
Definition year_month_of (r : Row) : Z * Z := (year (Date r), month (Date r)).

Definition ym_eqb (a b : Z * Z) : bool :=
  (fst a =? fst b) && (snd a =? snd b).

(** The order of [sort(['year', 'month'])]. *)
Definition ym_leb (a b : Z * Z) : bool :=
  (fst a <? fst b) || ((fst a =? fst b) && (snd a <=? snd b)).

Definition agg_monthly (df : DataFrame) : list MonthAgg.t :=
  map (fun g : (Z * Z) * DataFrame =>
         MonthAgg.mk (fst (fst g)) (snd (fst g))
           (Polars.sum_float (map Revenue (snd g)))
           (Polars.sum_int (map Units_Sold (snd g)))
           (Polars.len (snd g))
           (Polars.mean_float (map Price_Per_Unit (snd g))))
      (Polars.group_by ym_eqb year_month_of df).

Definition month_key (a : MonthAgg.t) : Z * Z :=
  (MonthAgg.year a, MonthAgg.month a).

(** [f"{row['year']}-{row['month']:02d}"]. *)
Definition render_year_month (y m : Z) : string :=
  py_str y +:+ "-" +:+ format_02d m.

(** A loop that appends one converted row per input row, and stops at the
    first conversion that raises. *)
Fixpoint for_each {A B : Type} (f : A -> Result B) (l : list A)
  : Result (list B) :=
  match l with
  | [] => Ok []
  | x :: l' =>
    do y <~ f x;
    do ys <~ for_each f l';
    Ok (y :: ys)
  end.

Definition monthly_row (row : MonthAgg.t) : Result Monthly.t :=
  do avg_price <~ py_float_of (MonthAgg.avg_price row);
  Ok (Monthly.mk (render_year_month (MonthAgg.year row) (MonthAgg.month row))
        (MonthAgg.monthly_revenue row) (MonthAgg.monthly_units row)
        (MonthAgg.monthly_transactions row) avg_price).

Definition get_monthly_trends (self_df : option DataFrame)
  : Result (list Monthly.t) :=
  match self_df with
  | None => Ok []
  | Some df =>
    let result :=
      Polars.sort_by
        (Polars.direction (fun a b => ym_leb (month_key a) (month_key b)) false)
        (agg_monthly df) in
    for_each monthly_row result
  end.

(** [x.strftime(...)] on what [min()]/[max()] returned: [None] has no such
    method. *)
Definition strftime_of (x : option date) : Result string :=
  match x with
  | Some d => Ok (strftime_ymd d)
  | None => Raise AttributeError
  end.

Definition get_filter_options (self_df : option DataFrame)
  : Result (Dict Options.t) :=
  match self_df with
  | None => Ok EmptyDict
  | Some df =>
    let regions := Polars.unique_by String.eqb (map Region df) in
    let channels := Polars.unique_by String.eqb (map Sales_Channel df) in
    do pmin <~ py_float_of (Polars.extremum Qle_bool (map Price_Per_Unit df));
    do pmax <~ py_float_of
                 (Polars.extremum (fun a b => Qle_bool b a) (map Price_Per_Unit df));
    do dstart <~ strftime_of (Polars.extremum date_leb (map Date df));
    do dend <~ strftime_of
                 (Polars.extremum (fun a b => date_leb b a) (map Date df));
    Ok (Keys (Options.mk regions channels pmin pmax dstart dend))
  end.

(** [dict(row)] with [record['Date']] replaced by its rendering. *)
Definition table_record (row : Row) : TableRow.t :=
  TableRow.mk (Sale_ID row) (strftime_ymd (Date row)) (Units_Sold row)
    (Price_Per_Unit row) (Revenue row) (Region row) (Sales_Channel row).

(** Python's [a // b]: floor division, which raises on a zero divisor. *)
Definition floordiv (a b : Z) : Result Z :=
  if b =? 0 then Raise ZeroDivisionError else Ok (a / b).

Definition get_table_data (self_df : option DataFrame)
  (page per_page : Z) (sort_by sort_order : string) : Result Table.t :=
  match self_df with
  | None => Ok (Table.mk [] 0 0 None)
  | Some df =>
    (* Sort data *)
    let ascending := String.eqb sort_order "asc" in
    do sorted_df <~ df_sort sort_by (negb ascending) df;
    (* Pagination *)
    let total_records := Polars.len sorted_df in
    do total_pages <~ floordiv (total_records + per_page - 1) per_page;
    let offset := (page - 1) * per_page in
    do page_data <~ Polars.slice offset per_page sorted_df;
    (* Convert to dict format *)
    let records := map table_record page_data in
    Ok (Table.mk records total_records total_pages (Some page))
  end.

(** * The request handlers of [app.py] *)

(** A JSON response: the payload and the HTTP status. *)
Inductive Body : Type :=
| BodyTable (data : Table.t)
| BodyUploaded (records : Z) (backup_file : string)
| BodyError (message : string)
| BodyException (e : Exn).

Record Response : Type := mkResponse { body : Body; status : Z }.

(** Truthiness of a query parameter: present and not the empty string. *)
Definition truthy_arg (args : gmap string string) (name : string)
  : option string :=
  match args !! name with
  | Some "" => None
  | x => x
  end.

(** [s.split(',')]. *)
Fixpoint split_comma (s : string) : list string :=
  match s with
  | "" => [""]
  | String c s' =>
    if Ascii.eqb c "," then "" :: split_comma s'
    else match split_comma s' with
         | h :: t => String c h :: t
         | [] => [String c ""]
         end
  end.

Section GetData.

(** Python's [int(s)] and [float(s)] on a string; [None] stands for the
    [ValueError] of a string that is not a number. *)
Variable py_int : string -> option Z.
Variable py_float : string -> option Q.

(** The dataframe library's reading of a string that is compared with the
    [Date] column; [None] when it refuses the comparison. *)
Variable date_literal : string -> option date.

(** [int(request.args.get(name, default))]. *)
Definition int_arg (args : gmap string string) (name : string) (default : Z)
  : Result Z :=
  match args !! name with
  | None => Ok default
  | Some s => match py_int s with
              | Some n => Ok n
              | None => Raise ValueError
              end
  end.

(** [float(request.args.get(name))] under [if request.args.get(name)]. *)
Definition float_arg (args : gmap string string) (name : string)
  : Result (option Q) :=
  match truthy_arg args name with
  | None => Ok None
  | Some s => match py_float s with
              | Some q => Ok (Some q)
              | None => Raise ValueError
              end
  end.

Definition date_bound (raw : option string) : Result (option date) :=
  match raw with
  | None => Ok None
  | Some s => match date_literal s with
              | Some d => Ok (Some d)
              | None => Raise ComputeError
              end
  end.

(** [processor.filter_data(filters)] on the filters built from the query,
    whose date bounds are still strings. *)
Definition filter_data_query (processor_df : option DataFrame)
  (raw_start raw_end : option string) (regions channels : option (list string))
  (min_price max_price : option Q) : Result (option DataFrame) :=
  match processor_df with
  | None => Ok None
  | Some df =>
    do start_date <~ date_bound raw_start;
    do end_date <~ date_bound raw_end;
    Ok (filter_data (Some df)
          (mkFilters start_date end_date regions channels min_price max_price))
  end.

Definition is_some {A : Type} (o : option A) : bool :=
  match o with Some _ => true | None => false end.

(** [GET /api/data]. *)
Definition get_data (processor_df : option DataFrame)
  (args : gmap string string) : Response :=
  let outcome :=
    (* Get query parameters *)
    do page <~ int_arg args "page" 1;
    do per_page <~ int_arg args "per_page" 50;
    let sort_by := default "Date" (args !! "sort_by") in
    let sort_order := default "desc" (args !! "sort_order") in
    (* Get filters from query parameters *)
    let raw_start := truthy_arg args "start_date" in
    let raw_end := truthy_arg args "end_date" in
    let regions := option_map split_comma (truthy_arg args "regions") in
    let channels := option_map split_comma (truthy_arg args "channels") in
    do min_price <~ float_arg args "min_price";
    do max_price <~ float_arg args "max_price";
    (* Apply filters if any *)
    if is_some raw_start || is_some raw_end || is_some regions
       || is_some channels || is_some min_price || is_some max_price
    then
      do filtered_df <~ filter_data_query processor_df raw_start raw_end
                          regions channels min_price max_price;
      match filtered_df with
      | Some filtered =>
        get_table_data (Some filtered) page per_page sort_by sort_order
      | None => Ok (Table.mk [] 0 0 (Some page))
      end
    else get_table_data processor_df page per_page sort_by sort_order
  in
  match outcome with
  | Ok data => mkResponse (BodyTable data) 200
  | Raise e => mkResponse (BodyException e) 500
  end.

End GetData.

(** The reply of the other routes: [jsonify(data)] with status 200, or an
    error payload with its status. *)
Inductive Answer (A : Type) : Type :=
| Data (data : A)
| ErrorText (message : string)
| ExceptionText (e : Exn).

Arguments Data {A} data.
Arguments ErrorText {A} message.
Arguments ExceptionText {A} e.

Record Reply (A : Type) : Type := mkReply {
  answer : Answer A;
  code : Z
}.

Arguments mkReply {A} answer code.
Arguments answer {A} r.
Arguments code {A} r.

(** [try: return jsonify(...) except Exception as e: return
    jsonify({'error': str(e)}), 500]. *)
Definition jsonify_or_500 {A : Type} (outcome : Result A) : Reply A :=
  match outcome with
  | Ok data => mkReply (Data data) 200
  | Raise e => mkReply (ExceptionText e) 500
  end.

(** The read-only routes; each calls the method of the global [processor]. *)
Module App.


(** [GET /api/revenue-by-region]. *)
Definition get_revenue_by_region (processor_df : option DataFrame)
  : Reply (list (Group.t string)) :=
  jsonify_or_500 (Ok (get_revenue_by_region processor_df)).

(** [GET /api/revenue-by-channel]. *)
Definition get_revenue_by_channel (processor_df : option DataFrame)
  : Reply (list (Group.t string)) :=
  jsonify_or_500 (Ok (get_revenue_by_channel processor_df)).


(** [GET /api/monthly-trends]. *)
Definition get_monthly_trends (processor_df : option DataFrame)
  : Reply (list Monthly.t) :=
  jsonify_or_500 (get_monthly_trends processor_df).

(** [GET /api/price-distribution]. *)
Definition get_price_distribution (processor_df : option DataFrame)
  : Reply (list (Group.t Q)) :=
  jsonify_or_500 (Ok (get_price_distribution processor_df)).

(** [GET /api/filter-options]. *)
Definition get_filter_options (processor_df : option DataFrame)
  : Reply (Dict Options.t) :=
  jsonify_or_500 (get_filter_options processor_df).

End App.




Section FilteredAnalytics.

(** The dataframe library's reading of a string that is compared with the
    [Date] column; [None] when it refuses the comparison. *)
Variable date_literal : string -> option date.


End FilteredAnalytics.

(** * The dataset store and the upload *)

(** A dataframe as [load_data] obtains it: the columns found in the file and
    the rows.  The query methods read the rows of a frame that has the seven
    schema columns. *)
Record Frame : Type := mkFrame {
  columns : list string;
  rows : DataFrame
}.

(** What [pl.read_csv] makes of the content of a file: it raises (not a CSV,
    a cell that cannot be coerced to the requested dtype) or it returns a
    frame. *)
Inductive Source : Type :=
| Unreadable
| Readable (frame : Frame).

(** The files, by path. *)
Abbreviation Files := (gmap string Source).

Record DataProcessor : Type := mkDataProcessor {
  csv_path : string;
  df : option Frame
}.

(** [pl.read_csv(path, ...)]; a path without a file raises too. *)
Definition read_csv (files : Files) (path : string) : option Frame :=
  match files !! path with
  | Some (Readable frame) => Some frame
  | Some Unreadable => None
  | None => None
  end.

(** [load_data]: on any exception the dataframe is reset to [None]. *)
Definition load_data (files : Files) (self : DataProcessor) : DataProcessor :=
  match read_csv files (csv_path self) with
  | Some frame => mkDataProcessor (csv_path self) (Some frame)
  | None => mkDataProcessor (csv_path self) None
  end.

(** [DataProcessor(csv_path)]. *)
Definition new_processor (files : Files) (path : string) : DataProcessor :=
  load_data files (mkDataProcessor path None).

(** Configuration. *)
Definition UPLOAD_FOLDER : string := "data".
Definition DATA_FILE : string :=
  "../data/AI_Note_Taking_Pin_Sales_Data__2025_.csv".
Definition required_columns : list string :=
  ["Sale_ID"; "Date"; "Units_Sold"; "Price_Per_Unit"; "Revenue"; "Region";
   "Sales_Channel"].

(** [s.lower()] on ASCII letters. *)
Definition lower_ascii (c : ascii) : ascii :=
  let n := nat_of_ascii c in
  if (Nat.leb 65 n && Nat.leb n 90)%bool then ascii_of_nat (n + 32) else c.

Fixpoint lower (s : string) : string :=
  match s with
  | "" => ""
  | String c s' => String (lower_ascii c) (lower s')
  end.

(** [filename.rsplit('.', 1)[1]] when ['.' in filename]: the text after the
    last dot. *)
Fixpoint extension (filename : string) : option string :=
  match filename with
  | "" => None
  | String c s' =>
    match extension s' with
    | Some e => Some e
    | None => if Ascii.eqb c "." then Some s' else None
    end
  end.

Definition allowed_file (filename : string) : bool :=
  match extension filename with
  | Some e => String.eqb (lower e) "csv"
  | None => false
  end.

(** [required_columns.issubset(set(columns))]. *)
Definition has_required_columns (frame : Frame) : bool :=
  forallb (fun c => existsb (String.eqb c) (columns frame)) required_columns.

(** The part ['file'] of an upload request. *)
Record Upload : Type := mkUpload {
  filename : string;
  content : Source
}.

(** What the handler reads and writes: the files and the global
    [processor]. *)
Record Server : Type := mkServer {
  files : Files;
  processor : DataProcessor
}.

Section UploadFile.

(** [werkzeug.utils.secure_filename]. *)
Variable secure_filename : string -> string.

Definition temp_path_of (name : string) : string :=
  UPLOAD_FOLDER +:+ "/" +:+ "temp_" +:+ secure_filename name.

(** The backup name for the clock reading [now], already formatted as
    [%Y%m%d_%H%M%S]. *)
Definition backup_path_of (now : string) : string :=
  UPLOAD_FOLDER +:+ "/" +:+ "backup_" +:+ now +:+ ".csv".

(** [POST /api/upload]. *)
Definition upload_file (server : Server) (file : option Upload) (now : string)
  : Response * Server :=
  match file with
  | None => (mkResponse (BodyError "No file provided") 400, server)
  | Some file =>
    if String.eqb (filename file) ""
    then (mkResponse (BodyError "No file selected") 400, server)
    else if negb (allowed_file (filename file))
    then (mkResponse
            (BodyError "Invalid file type. Only CSV files are allowed.") 400,
          server)
    else
      (* Save uploaded file temporarily *)
      let temp_path := temp_path_of (filename file) in
      let saved := <[temp_path := content file]> (files server) in
      (* Validate CSV structure *)
      let test_processor := new_processor saved temp_path in
      match df test_processor with
      | None =>
        (mkResponse (BodyError "Invalid CSV file format") 400,
         mkServer (delete temp_path saved) (processor server))
      | Some frame =>
        (* Check if it has the required columns *)
        if negb (has_required_columns frame)
        then (mkResponse (BodyError "CSV must contain columns: ...") 400,
              mkServer (delete temp_path saved) (processor server))
        else
          (* Backup current file *)
          let backup_path := backup_path_of now in
          let backed_up :=
            match saved !! DATA_FILE with
            | Some current => <[backup_path := current]> saved
            | None => saved
            end in
          (* Replace the current file *)
          match backed_up !! temp_path with
          | None =>
            (* shutil.move on a path that is gone *)
            (mkResponse (BodyException FileNotFoundError) 500,
             mkServer backed_up (processor server))
          | Some uploaded =>
            let replaced :=
              <[DATA_FILE := uploaded]> (delete temp_path backed_up) in
            (* Reload data processor *)
            let reloaded := new_processor replaced DATA_FILE in
            match df reloaded with
            | Some active =>
              (mkResponse
                 (BodyUploaded (Polars.len (rows active))
                    ("backup_" +:+ now +:+ ".csv")) 200,
               mkServer replaced reloaded)
            | None =>
              (* len(None) *)
              (mkResponse (BodyException TypeError) 500,
               mkServer replaced reloaded)
            end
          end
      end
  end.

End UploadFile.

(** * Specification

    The notions that the properties are stated with, and the data of the
    examples. *)







(** A dataset of three records, used by the examples. *)
Definition table_example : DataFrame :=
  [ mkRow 1 (mkdate 2025 1 1) 3 (10 # 1) (30 # 1) "North" "Online";
    mkRow 2 (mkdate 2025 1 2) 1 (10 # 1) (10 # 1) "South" "Retail";
    mkRow 3 (mkdate 2025 2 1) 2 (10 # 1) (20 # 1) "North" "Retail" ].














(** Readings of the query strings for a request that carries no number and
    no date. *)
Definition no_int (s : string) : option Z := None.
Definition no_float (s : string) : option Q := None.
Definition no_date (s : string) : option date := None.

(** A source that does not give a dataset: it cannot be read, or the frame
    read from it lacks one of the seven required columns. *)
Definition lacks_required_column (s : Source) : Prop :=
  match s with
  | Unreadable => True
  | Readable frame =>
    exists c : string, In c required_columns /\ ~ In c (columns frame)
  end.

(** An upload without the column [Region], on a server with an active file. *)
Definition upload_without_region : Upload :=
  mkUpload "sales.csv"
    (Readable
       (mkFrame
          ["Sale_ID"; "Date"; "Units_Sold"; "Price_Per_Unit"; "Revenue";
           "Sales_Channel"] [])).

(** The active dataset of the examples, as a frame and as a server. *)
Definition active_frame : Frame := mkFrame required_columns table_example.

Definition active_server : Server :=
  mkServer {[ DATA_FILE := Readable active_frame ]}
    (mkDataProcessor DATA_FILE (Some active_frame)).

(** A file name that needs no cleaning. *)
Definition keep_name (name : string) : string := name.





(** The records that a call for a page returns; none when it raises. *)
Definition page_data (df : DataFrame) (per_page : Z) (name sort_order : string)
  (page : nat) : list TableRow.t :=
  match get_table_data (Some df) (Z.of_nat page) per_page name sort_order with
  | Ok t => Table.data t
  | Raise _ => []
  end.


(** The global processor holds what a fresh load of the data file gives. *)
Definition in_sync (server : Server) : Prop :=
  processor server = new_processor (files server) DATA_FILE.

(** * Properties *)

(** ** Filtering *)










(** ** Sorting *)

Section SortBy.
Context {A : Type} (leb : A -> A -> bool).


Lemma insert_by_perm (x : A) (l : list A) :
  Permutation (Polars.insert_by leb x l) (x :: l).
Proof.
  induction l as [| y l IH]; simpl; [reflexivity |].
  destruct (leb x y); [reflexivity |].
  rewrite IH. apply perm_swap.
Qed.

Lemma sort_by_perm (l : list A) : Permutation (Polars.sort_by leb l) l.
Proof.
  induction l as [| x l IH]; simpl; [reflexivity |].
  rewrite insert_by_perm. now constructor.
Qed.


Lemma sort_by_In (l : list A) (x : A) : In x (Polars.sort_by leb l) <-> In x l.
Proof.
  split; apply Permutation_in; [| symmetry]; apply sort_by_perm.
Qed.

Hypothesis leb_total : forall a b, leb a b = true \/ leb b a = true.
Hypothesis leb_trans : forall a b c, le a b -> le b c -> le a c.



End SortBy.

(** The orders of the columns are total and transitive. *)











(** ** Pagination *)











(** The example of the specification: revenues 30, 10, 20 sorted ascending,
    first page of two records. *)
Example get_table_data_example :
  exists t : Table.t,
    get_table_data (Some table_example) 1 2 "Revenue" "asc" = Ok t
    /\ map TableRow.Revenue (Table.data t) = [10 # 1; 20 # 1]%Q
    /\ Table.total t = 3 /\ Table.pages t = 2.
Proof. eexists. split; [reflexivity |]. repeat split. Qed.

(** ** Key performance indicators *)











(** C7.  On a loaded dataset without records [get_kpi_metrics] neither
    returns the no-data dict nor any metrics: the mean of the empty price
    column is [None] and [float(None)] raises. *)
Theorem get_kpi_metrics_empty_raises :
  get_kpi_metrics (Some []) = Raise TypeError
  /\ get_kpi_metrics None = Ok EmptyDict.
Proof. split; reflexivity. Qed.

(** ** Grouping *)

Section GroupBy.
Context {K : Type} (eqb : K -> K -> bool).
Hypothesis eqb_eq : forall a b : K, eqb a b = true <-> a = b.





End GroupBy.







Example revenue_by_region_example :
  map (fun g => (Group.key g, Group.total_revenue g, Group.transaction_count g))
      (get_revenue_by_region (Some table_example))
  = [("North", (50 # 1)%Q, 2); ("South", (10 # 1)%Q, 1)].
Proof. reflexivity. Qed.

(** ** Monthly trend *)














(** ** Errors of the table request *)





(** ** No dataset loaded *)

Lemma get_table_data_current_page (df : DataFrame) (page per_page : Z)
  (sort_by sort_order : string) (t : Table.t) :
  get_table_data (Some df) page per_page sort_by sort_order = Ok t ->
  Table.current_page t = Some page.
Proof.
  unfold get_table_data.
  destruct (df_sort sort_by _ df) as [sorted | e]; [| discriminate].
  cbn [bind].
  destruct (floordiv _ per_page) as [n | e]; [| discriminate]. cbn [bind].
  destruct (Polars.slice _ per_page sorted) as [rows | e]; [| discriminate].
  cbn [bind]. now intros [= <-].
Qed.

(** C10.  With no dataset loaded ([self.df] is [None]) no query raises:
    [get_kpi_metrics] and [get_filter_options] return the empty dict, the
    two breakdowns, the two trends and the price distribution return the
    empty list, [filter_data] returns [None], and [get_table_data] returns
    [data = [], total = 0, pages = 0] without the [current_page] key, which
    every result over a loaded dataset carries. *)
Theorem no_dataset_results :
  get_kpi_metrics None = Ok EmptyDict
  /\ get_filter_options None = Ok EmptyDict
  /\ get_revenue_by_region None = []
  /\ get_revenue_by_channel None = []
  /\ get_daily_revenue_trend None = []
  /\ get_monthly_trends None = Ok []
  /\ get_price_distribution None = []
  /\ (forall filters : Filters, filter_data None filters = None)
  /\ (forall (page per_page : Z) (sort_by sort_order : string),
        get_table_data None page per_page sort_by sort_order
        = Ok (Table.mk [] 0 0 None))
  /\ (forall (df : DataFrame) (page per_page : Z) (sort_by sort_order : string)
             (t : Table.t),
        get_table_data (Some df) page per_page sort_by sort_order = Ok t ->
        Table.current_page t = Some page).
Proof.
  repeat split; try reflexivity. apply get_table_data_current_page.
Qed.

Lemma no_dataset_results_witness :
  get_table_data None 1 50 "Date" "desc" = Ok (Table.mk [] 0 0 None)
  /\ exists t : Table.t,
       get_table_data (Some table_example) 1 50 "Date" "desc" = Ok t
       /\ Table.current_page t = Some 1.
Proof.
  destruct no_dataset_results as (_ & _ & _ & _ & _ & _ & _ & _ & Hnone & Hsome).
  split; [apply Hnone |].
  eexists. split; [reflexivity |].
  apply (Hsome table_example 1 50 "Date" "desc"). reflexivity.
Defined.

(** ** Rejected uploads and failed loads *)

Lemma has_required_columns_false (frame : Frame) :
  (exists c : string, In c required_columns /\ ~ In c (columns frame)) ->
  has_required_columns frame = false.
Proof.
  intros (c & Hreq & Hmiss). unfold has_required_columns.
  apply not_true_is_false. rewrite forallb_forall. intros Hall.
  specialize (Hall c Hreq). apply existsb_exists in Hall.
  destruct Hall as (c' & Hin & Heq). apply String.eqb_eq in Heq. now subst.
Qed.

Lemma backup_is_not_temp (secure_filename : string -> string)
  (name now : string) :
  backup_path_of now <> temp_path_of secure_filename name.
Proof. unfold backup_path_of, temp_path_of. simpl. discriminate. Qed.

Lemma data_file_is_not_temp (secure_filename : string -> string) (name : string) :
  DATA_FILE <> temp_path_of secure_filename name.
Proof. unfold DATA_FILE, temp_path_of. simpl. discriminate. Qed.

(** C8.  An upload whose source cannot be read or lacks a required column is
    answered with status 400; the global processor is the one of before; no
    file other than the temporary one is touched, so no backup is written and
    the active data file is as before; and the temporary copy of the upload
    is gone. *)
Theorem upload_file_rejected (secure_filename : string -> string)
  (server : Server) (file : Upload) (now : string) :
  lacks_required_column (content file) ->
  let result := upload_file secure_filename server (Some file) now in
  let temp_path := temp_path_of secure_filename (filename file) in
  status (fst result) = 400
  /\ processor (snd result) = processor server
  /\ (forall path : string, path <> temp_path ->
        files (snd result) !! path = files server !! path)
  /\ files (snd result) !! backup_path_of now
     = files server !! backup_path_of now
  /\ files (snd result) !! DATA_FILE = files server !! DATA_FILE
  /\ (files (snd result) = files server
      \/ files (snd result) !! temp_path = None).
Proof.
  intros Hlack result temp_path.
  assert (Hcases :
            result = (fst result, server) /\ status (fst result) = 400
            \/ (status (fst result) = 400
                /\ snd result
                   = mkServer
                       (delete temp_path
                          (<[temp_path := content file]> (files server)))
                       (processor server))).
  { subst result. unfold upload_file.
    destruct (String.eqb (filename file) ""); [now left |].
    destruct (negb (allowed_file (filename file))); [now left |].
    fold temp_path. unfold new_processor, load_data, read_csv.
    cbn [csv_path]. rewrite lookup_insert_eq.
    destruct (content file) as [| frame]; cbn [df]; [now right |].
    rewrite (has_required_columns_false frame Hlack). now right. }
  destruct Hcases as [[Hres Hst] | [Hst Hres]].
  - rewrite Hres. cbn [snd fst]. repeat split; auto.
  - rewrite Hres. cbn [files processor]. repeat split; auto.
    + intros path Hpath. now rewrite lookup_delete_ne, lookup_insert_ne.
    + rewrite lookup_delete_ne, lookup_insert_ne; auto;
        apply not_eq_sym, backup_is_not_temp.
    + rewrite lookup_delete_ne, lookup_insert_ne; auto;
        apply not_eq_sym, data_file_is_not_temp.
    + right. apply lookup_delete_eq.
Qed.

Lemma upload_file_rejected_witness :
  lacks_required_column (content upload_without_region)
  /\ status (fst (upload_file keep_name active_server
                    (Some upload_without_region) "20250102_030405")) = 400
  /\ processor (snd (upload_file keep_name active_server
                       (Some upload_without_region) "20250102_030405"))
     = processor active_server
  /\ files (snd (upload_file keep_name active_server
                   (Some upload_without_region) "20250102_030405"))
       !! backup_path_of "20250102_030405"
     = files active_server !! backup_path_of "20250102_030405".
Proof.
  assert (Hlack : lacks_required_column (content upload_without_region)).
  { exists "Region". split.
    - simpl. tauto.
    - simpl. intros H. repeat (destruct H as [H | H]; [discriminate H |]).
      exact H. }
  split; [exact Hlack |].
  destruct (upload_file_rejected keep_name active_server upload_without_region
              "20250102_030405" Hlack) as (H1 & H2 & _ & H4 & _).
  split; [exact H1 |]. split; [exact H2 | exact H4].
Defined.

(** A valid upload on the same server is accepted, backed up and swapped
    in. *)
Example upload_file_accepted :
  let result :=
    upload_file keep_name active_server
      (Some (mkUpload "new.CSV" (Readable (mkFrame required_columns []))))
      "20250102_030405" in
  fst result = mkResponse (BodyUploaded 0 "backup_20250102_030405.csv") 200
  /\ files (snd result) !! backup_path_of "20250102_030405"
     = Some (Readable active_frame)
  /\ df (processor (snd result)) = Some (mkFrame required_columns []).
Proof. vm_compute. repeat split. Qed.

(** C9, as the code has it.  A load that fails (no file, not a CSV, a value
    that cannot be coerced) leaves the processor without a dataset, whatever
    it held before; a load that succeeds holds the frame read, whatever its
    columns are. *)
Theorem load_data_outcome (files : Files) (self : DataProcessor) :
  csv_path (load_data files self) = csv_path self
  /\ (read_csv files (csv_path self) = None -> df (load_data files self) = None)
  /\ (forall frame : Frame,
        read_csv files (csv_path self) = Some frame ->
        df (load_data files self) = Some frame).
Proof.
  unfold load_data.
  destruct (read_csv files (csv_path self)) as [frame |]; cbn [csv_path df].
  - repeat split; [discriminate | now intros ? [= <-]].
  - repeat split. discriminate.
Qed.

Lemma load_data_outcome_witness :
  read_csv {[ DATA_FILE := Unreadable ]}
    (csv_path (mkDataProcessor DATA_FILE (Some active_frame))) = None
  /\ df (load_data {[ DATA_FILE := Unreadable ]}
           (mkDataProcessor DATA_FILE (Some active_frame))) = None.
Proof.
  assert (H : read_csv {[ DATA_FILE := Unreadable ]}
                (csv_path (mkDataProcessor DATA_FILE (Some active_frame)))
              = None).
  { unfold read_csv. cbn [csv_path]. now rewrite lookup_singleton_eq. }
  split; [exact H |].
  apply (load_data_outcome {[ DATA_FILE := Unreadable ]}
           (mkDataProcessor DATA_FILE (Some active_frame))).
  exact H.
Defined.

(** C9 as stated fails: a failed [load_data] on a processor that holds a
    valid dataset does not leave that dataset visible. *)
Lemma load_data_failure_drops_dataset :
  df (mkDataProcessor DATA_FILE (Some active_frame)) = Some active_frame
  /\ has_required_columns active_frame = true
  /\ df (load_data {[ DATA_FILE := Unreadable ]}
           (mkDataProcessor DATA_FILE (Some active_frame))) = None
  /\ df (load_data {[ DATA_FILE := Unreadable ]}
           (mkDataProcessor DATA_FILE (Some active_frame)))
     <> df (mkDataProcessor DATA_FILE (Some active_frame)).
Proof.
  assert (H : df (load_data {[ DATA_FILE := Unreadable ]}
                    (mkDataProcessor DATA_FILE (Some active_frame))) = None).
  { unfold load_data, read_csv. cbn [csv_path].
    now rewrite lookup_singleton_eq. }
  split; [reflexivity |]. split; [reflexivity |]. split; [exact H |].
  rewrite H. discriminate.
Qed.

(** * Further properties of the code *)

(** ** Daily trend *)





(** ** Price distribution *)

(** Grouping by a key whose equality test is an equivalence but not the
    identity, as the test of two floats. *)
Section GroupByEquivalence.
Context {K : Type} (eqb : K -> K -> bool).


Hypothesis eqb_refl : forall a, eqb a a = true.


Hypothesis eqb_sym : forall a b, eqb a b = true -> eqb b a = true.
Hypothesis eqb_trans : forall a b c, eqb a b = true -> eqb b c = true -> eqb a c = true.



End GroupByEquivalence.







(** ** Filter options *)

Section Extremum.
Context {A : Type} (leb : A -> A -> bool).
Hypothesis leb_total : forall a b, leb a b = true \/ leb b a = true.
Hypothesis leb_trans :
  forall a b c, leb a b = true -> leb b c = true -> leb a c = true.




End Extremum.




(** ** Top performers *)




(** ** Composition of filters *)





(** ** Errors and coverage of the paged table *)








(** ** The table request *)

Lemma date_bound_none (date_literal : string -> option date) (d : option date) :
  date_bound date_literal None = Ok d -> d = None.
Proof. now intros [= <-]. Qed.



(** With no dataset loaded [GET /api/data] answers status 200 and an empty
    table whenever its numbers can be read, also for an unknown sort column
    or unreadable dates; the [current_page] key is in the answer exactly when
    the query carries a filter parameter. *)
Theorem get_data_no_dataset
  (py_int : string -> option Z) (py_float : string -> option Q)
  (date_literal : string -> option date)
  (args : gmap string string) (page per_page : Z) (lo hi : option Q) :
  int_arg py_int args "page" 1 = Ok page ->
  int_arg py_int args "per_page" 50 = Ok per_page ->
  float_arg py_float args "min_price" = Ok lo ->
  float_arg py_float args "max_price" = Ok hi ->
  get_data py_int py_float date_literal None args
  = mkResponse
      (BodyTable
         (Table.mk [] 0 0
            (if is_some (truthy_arg args "start_date")
                || is_some (truthy_arg args "end_date")
                || is_some (truthy_arg args "regions")
                || is_some (truthy_arg args "channels")
                || is_some lo || is_some hi
             then Some page else None)))
      200.
Proof.
  intros Hpage Hper Hlo Hhi. unfold get_data.
  rewrite Hpage, Hper, Hlo, Hhi. cbn [bind].
  destruct (truthy_arg args "start_date"), (truthy_arg args "end_date"),
    (truthy_arg args "regions"), (truthy_arg args "channels"), lo, hi;
    reflexivity.
Qed.

Lemma get_data_no_dataset_witness :
  int_arg no_int ∅ "page" 1 = Ok 1
  /\ get_data no_int no_float no_date None ∅
     = mkResponse (BodyTable (Table.mk [] 0 0 None)) 200.
Proof.
  assert (Hint : forall k d, int_arg no_int ∅ k d = Ok d).
  { intros k d. unfold int_arg. now rewrite lookup_empty. }
  assert (Hfloat : forall k, float_arg no_float ∅ k = Ok None).
  { intros k. unfold float_arg, truthy_arg. now rewrite lookup_empty. }
  split; [apply Hint |].
  rewrite (get_data_no_dataset no_int no_float no_date ∅ 1 50 None None)
    by auto.
  unfold truthy_arg. now rewrite !lookup_empty.
Defined.


(** ** The read-only routes and the filtered analytics *)








(** ** Query strings and file names *)

Lemma split_comma_nonempty (s : string) : split_comma s <> [].
Proof.
  destruct s as [| c s]; simpl; [discriminate |].
  destruct (Ascii.eqb c ","); [discriminate |].
  destruct (split_comma s); discriminate.
Qed.

(** [split(',')] and [','.join] are inverse: joining the pieces of a string
    with commas gives the string back; there is always at least one piece,
    and no piece contains a comma. *)
Theorem split_comma_join (s : string) :
  String.concat "," (split_comma s) = s
  /\ split_comma s <> []
  /\ Forall (fun piece => ~ In ","%char (list_ascii_of_string piece))
       (split_comma s).
Proof.
  split; [| split; [apply split_comma_nonempty |]].
  - induction s as [| c s IH]; [reflexivity |].
    cbn [split_comma]. destruct (Ascii.eqb_spec c ",") as [-> | Hc].
    + pose proof (split_comma_nonempty s) as Hne.
      destruct (split_comma s) as [| h t]; [now elim Hne |].
      cbn [String.concat]. cbn [String.concat] in IH. now rewrite IH.
    + pose proof (split_comma_nonempty s) as Hne.
      destruct (split_comma s) as [| h t]; [now elim Hne |].
      cbn [String.concat] in IH |- *.
      destruct t as [| h' t]; simpl; now rewrite <- IH.
  - induction s as [| c s IH]; [repeat constructor; simpl; tauto |].
    cbn [split_comma]. destruct (Ascii.eqb_spec c ",") as [-> | Hc].
    + constructor; [simpl; tauto | exact IH].
    + destruct (split_comma s) as [| h t].
      * repeat constructor. simpl. intros [H | []]. congruence.
      * apply Forall_cons_iff in IH. destruct IH as [Hh Ht].
        constructor; [| exact Ht]. simpl. intros [H | H]; [congruence | auto].
Qed.

Lemma extension_split (name e : string) :
  extension name = Some e ->
  exists base : string, name = base +:+ String "." e /\ extension e = None.
Proof.
  revert e. induction name as [| c s IH]; intros e; simpl; [discriminate |].
  destruct (extension s) as [e' |] eqn:Es.
  - intros [= <-]. destruct (IH e' eq_refl) as (base & -> & Hnone).
    exists (String c base). now split.
  - destruct (Ascii.eqb_spec c ".") as [-> | Hc]; [| discriminate].
    intros [= <-]. exists "". now split.
Qed.

Lemma extension_append (base e : string) :
  extension e = None -> extension (base +:+ String "." e) = Some e.
Proof.
  intros He. induction base as [| c base IH]; simpl.
  - now rewrite He.
  - now rewrite IH.
Qed.

Lemma lower_csv_no_dot (e : string) : lower e = "csv" -> extension e = None.
Proof.
  destruct e as [| a [| b [| c [| d e]]]]; simpl; try discriminate.
  intros [= Ha Hb Hc].
  destruct (Ascii.eqb_spec c ".") as [-> | _]; [discriminate Hc |].
  destruct (Ascii.eqb_spec b ".") as [-> | _]; [discriminate Hb |].
  destruct (Ascii.eqb_spec a ".") as [-> | _]; [discriminate Ha |].
  reflexivity.
Qed.

(** [allowed_file] accepts exactly the names that end in a dot followed by
    [csv] in any mix of upper and lower case; a name without a dot is
    refused. *)
Theorem allowed_file_csv (name : string) :
  allowed_file name = true
  <-> exists base ext : string,
        name = base +:+ "." +:+ ext /\ lower ext = "csv".
Proof.
  unfold allowed_file. split.
  - destruct (extension name) as [e |] eqn:E; [| discriminate].
    intros H. apply String.eqb_eq in H.
    destruct (extension_split name e E) as (base & -> & _).
    now exists base, e.
  - intros (base & ext & -> & Hlow).
    change (base +:+ "." +:+ ext) with (base +:+ String "." ext).
    rewrite extension_append by now apply lower_csv_no_dot.
    now apply String.eqb_eq.
Qed.

(** ** Uploads *)

Lemma backup_is_not_data_file (now : string) : backup_path_of now <> DATA_FILE.
Proof. unfold backup_path_of, DATA_FILE. simpl. discriminate. Qed.

Lemma new_processor_lookup (files1 files2 : Files) (path : string) :
  files1 !! path = files2 !! path ->
  new_processor files1 path = new_processor files2 path.
Proof.
  intros H. unfold new_processor, load_data, read_csv. cbn [csv_path].
  now rewrite H.
Qed.

(** An upload with an allowed name whose source reads as a frame with the
    seven required columns is answered with status 200 and the number of its
    rows; afterwards the global processor holds that frame, the data file is
    the upload, the backup path holds the data file of before (when there
    was one), the temporary copy is gone and no other path is touched. *)
Theorem upload_file_replaces (secure_filename : string -> string)
  (server : Server) (file : Upload) (now : string) (frame : Frame) :
  filename file <> "" -> allowed_file (filename file) = true ->
  content file = Readable frame -> has_required_columns frame = true ->
  let result := upload_file secure_filename server (Some file) now in
  let temp_path := temp_path_of secure_filename (filename file) in
  fst result
  = mkResponse
      (BodyUploaded (Z.of_nat (length (rows frame)))
         ("backup_" +:+ now +:+ ".csv")) 200
  /\ processor (snd result) = mkDataProcessor DATA_FILE (Some frame)
  /\ files (snd result) !! DATA_FILE = Some (Readable frame)
  /\ files (snd result) !! backup_path_of now
     = match files server !! DATA_FILE with
       | Some previous => Some previous
       | None => files server !! backup_path_of now
       end
  /\ files (snd result) !! temp_path = None
  /\ forall path : string,
       path <> temp_path -> path <> DATA_FILE -> path <> backup_path_of now ->
       files (snd result) !! path = files server !! path.
Proof.
  intros Hname Hallowed Hcontent Hcols result temp_path.
  assert (Htd : temp_path <> DATA_FILE)
    by apply not_eq_sym, data_file_is_not_temp.
  assert (Hbt : backup_path_of now <> temp_path) by apply backup_is_not_temp.
  assert (Hbd : backup_path_of now <> DATA_FILE) by apply backup_is_not_data_file.
  subst result. unfold upload_file.
  apply String.eqb_neq in Hname. rewrite Hname, Hallowed. cbn [negb].
  fold temp_path.
  set (saved := <[temp_path := content file]> (files server)).
  assert (Hsaved_temp : saved !! temp_path = Some (Readable frame))
    by (subst saved; rewrite lookup_insert_eq; now f_equal).
  assert (Htest : df (new_processor saved temp_path) = Some frame).
  { unfold new_processor, load_data, read_csv. cbn [csv_path].
    now rewrite Hsaved_temp. }
  rewrite Htest, Hcols. cbn [negb].
  assert (Hsaved_data : saved !! DATA_FILE = files server !! DATA_FILE)
    by (subst saved; now rewrite lookup_insert_ne).
  rewrite Hsaved_data.
  set (backed_up := match files server !! DATA_FILE with
                    | Some current => <[backup_path_of now := current]> saved
                    | None => saved
                    end).
  assert (Hbacked_temp : backed_up !! temp_path = Some (Readable frame)).
  { subst backed_up. destruct (files server !! DATA_FILE);
      [rewrite lookup_insert_ne by exact Hbt |]; exact Hsaved_temp. }
  rewrite Hbacked_temp.
  set (replaced := <[DATA_FILE := Readable frame]> (delete temp_path backed_up)).
  assert (Hreload : new_processor replaced DATA_FILE
                    = mkDataProcessor DATA_FILE (Some frame)).
  { unfold new_processor, load_data, read_csv. cbn [csv_path].
    subst replaced. now rewrite lookup_insert_eq. }
  rewrite Hreload. cbn [df fst snd files processor].
  split; [reflexivity |]. split; [reflexivity |].
  split; [subst replaced; apply lookup_insert_eq |].
  split; [| split].
  - subst replaced. rewrite lookup_insert_ne, lookup_delete_ne by auto.
    subst backed_up. destruct (files server !! DATA_FILE).
    + apply lookup_insert_eq.
    + subst saved. now rewrite lookup_insert_ne by auto.
  - subst replaced. rewrite lookup_insert_ne by auto. apply lookup_delete_eq.
  - intros path Hpt Hpd Hpb. subst replaced.
    rewrite lookup_insert_ne, lookup_delete_ne by auto.
    subst backed_up. destruct (files server !! DATA_FILE);
      [rewrite lookup_insert_ne by auto |];
      subst saved; now rewrite lookup_insert_ne by auto.
Qed.

Lemma upload_file_replaces_witness :
  allowed_file "new.CSV" = true
  /\ has_required_columns (mkFrame required_columns table_example) = true
  /\ fst (upload_file keep_name active_server
            (Some (mkUpload "new.CSV"
                     (Readable (mkFrame required_columns table_example))))
            "20250102_030405")
     = mkResponse (BodyUploaded 3 "backup_20250102_030405.csv") 200.
Proof.
  split; [reflexivity |]. split; [reflexivity |].
  apply (upload_file_replaces keep_name active_server
           (mkUpload "new.CSV"
              (Readable (mkFrame required_columns table_example)))
           "20250102_030405" (mkFrame required_columns table_example));
    [discriminate | reflexivity | reflexivity | reflexivity].
Defined.

(** An upload without a file part, with an empty name, or with a name that
    [allowed_file] refuses is answered with status 400 before anything is
    written: the files and the global processor are those of before, whatever
    the content is. *)
Theorem upload_file_refused_name (secure_filename : string -> string)
  (server : Server) (now : string) :
  upload_file secure_filename server None now
  = (mkResponse (BodyError "No file provided") 400, server)
  /\ forall file : Upload,
       filename file = "" \/ allowed_file (filename file) = false ->
       status (fst (upload_file secure_filename server (Some file) now)) = 400
       /\ snd (upload_file secure_filename server (Some file) now) = server.
Proof.
  split; [reflexivity |]. intros file H. unfold upload_file.
  destruct (String.eqb_spec (filename file) "") as [_ | Hne]; [now split |].
  destruct H as [H | H]; [contradiction |]. rewrite H. now split.
Qed.

Lemma upload_file_refused_name_witness :
  allowed_file "sales.txt" = false
  /\ snd (upload_file keep_name active_server
            (Some (mkUpload "sales.txt" (Readable active_frame)))
            "20250102_030405")
     = active_server.
Proof.
  split; [reflexivity |].
  destruct (upload_file_refused_name keep_name active_server "20250102_030405")
    as [_ H].
  apply (H (mkUpload "sales.txt" (Readable active_frame))).
  right. reflexivity.
Defined.

(** Every upload, accepted or not, keeps the global processor in step with
    the data file: if the processor holds what a fresh load of the data file
    gives before the request, it does so after it. *)
Theorem upload_file_in_sync (secure_filename : string -> string)
  (server : Server) (file : option Upload) (now : string) :
  in_sync server ->
  in_sync (snd (upload_file secure_filename server file now)).
Proof.
  intros Hsync. unfold upload_file.
  destruct file as [file |]; [| exact Hsync].
  destruct (String.eqb (filename file) ""); [exact Hsync |].
  destruct (negb (allowed_file (filename file))); [exact Hsync |].
  set (temp_path := temp_path_of secure_filename (filename file)).
  set (saved := <[temp_path := content file]> (files server)).
  assert (Htd : temp_path <> DATA_FILE)
    by apply not_eq_sym, data_file_is_not_temp.
  assert (Hbd : backup_path_of now <> DATA_FILE) by apply backup_is_not_data_file.
  assert (Hsaved : saved !! DATA_FILE = files server !! DATA_FILE)
    by (subst saved; now rewrite lookup_insert_ne).
  assert (Hrejected : in_sync (mkServer (delete temp_path saved)
                                 (processor server))).
  { unfold in_sync in *. cbn [files processor]. rewrite Hsync.
    apply new_processor_lookup. now rewrite lookup_delete_ne. }
  destruct (df (new_processor saved temp_path)) as [frame |];
    [| exact Hrejected].
  destruct (negb (has_required_columns frame)); [exact Hrejected |].
  set (backed_up := match saved !! DATA_FILE with
                    | Some current => <[backup_path_of now := current]> saved
                    | None => saved
                    end).
  destruct (backed_up !! temp_path) as [uploaded |].
  - destruct (df (new_processor _ DATA_FILE)); reflexivity.
  - unfold in_sync in *. cbn [snd files processor]. rewrite Hsync.
    apply new_processor_lookup. subst backed_up.
    rewrite <- Hsaved. clear Hsaved.
    destruct (saved !! DATA_FILE) eqn:E;
      [rewrite lookup_insert_ne by auto |]; now rewrite E.
Qed.

Lemma upload_file_in_sync_witness :
  in_sync active_server
  /\ in_sync (snd (upload_file keep_name active_server
                     (Some upload_without_region) "20250102_030405")).
Proof.
  assert (H : in_sync active_server).
  { unfold in_sync, active_server, new_processor, load_data, read_csv.
    cbn [files processor csv_path]. now rewrite lookup_singleton_eq. }
  split; [exact H |]. now apply upload_file_in_sync.
Defined.

(** ** Groups partition the dataset *)






Section Partition.
Context {K : Type} (eqb : K -> K -> bool).
Hypothesis eqb_eq : forall a b : K, eqb a b = true <-> a = b.








End Partition.





(** ** Status of the table request *)

(** [GET /api/data] never answers with a client-error status: its status is
    200 or 500.  It is 500 whenever [page] or [per_page] is present and is
    not an integer, and whenever [min_price] or [max_price] is present, not
    empty, and is not a number. *)
Theorem get_data_status
  (py_int : string -> option Z) (py_float : string -> option Q)
  (date_literal : string -> option date)
  (processor_df : option DataFrame) (args : gmap string string) :
  let response := get_data py_int py_float date_literal processor_df args in
  (status response = 200 \/ status response = 500)
  /\ (forall k s : string,
        k = "page" \/ k = "per_page" ->
        args !! k = Some s -> py_int s = None -> status response = 500)
  /\ (forall k s : string,
        k = "min_price" \/ k = "max_price" ->
        truthy_arg args k = Some s -> py_float s = None ->
        status response = 500).
Proof.
  cbv zeta. split; [| split].
  - unfold get_data.
    match goal with
    | |- context [match ?o with Ok _ => _ | Raise _ => _ end] => destruct o
    end; auto.
  - intros k s Hk Hs Hint. unfold get_data.
    assert (Hraise : int_arg py_int args k 1 = Raise ValueError
                     /\ int_arg py_int args k 50 = Raise ValueError).
    { unfold int_arg. now rewrite Hs, Hint. }
    destruct Hraise as [H1 H50].
    destruct Hk as [-> | ->].
    + now rewrite H1.
    + rewrite H50. now destruct (int_arg py_int args "page" 1).
  - intros k s Hk Hs Hfloat. unfold get_data.
    assert (Hraise : float_arg py_float args k = Raise ValueError).
    { unfold float_arg. now rewrite Hs, Hfloat. }
    destruct (int_arg py_int args "page" 1); [| reflexivity].
    destruct (int_arg py_int args "per_page" 50); [| reflexivity].
    cbn [bind]. destruct Hk as [-> | ->].
    + now rewrite Hraise.
    + rewrite Hraise. now destruct (float_arg py_float args "min_price").
Qed.

Lemma get_data_status_witness :
  ({[ "page" := "two" ]} : gmap string string) !! "page" = Some "two"
  /\ no_int "two" = None
  /\ status (get_data no_int no_float no_date (Some table_example)
               {[ "page" := "two" ]}) = 500.
Proof.
  split; [apply lookup_singleton_eq |]. split; [reflexivity |].
  destruct (get_data_status no_int no_float no_date (Some table_example)
              {[ "page" := "two" ]}) as (_ & H & _).
  apply (H "page" "two"); [now left | apply lookup_singleton_eq | reflexivity].
Defined.
